(** * basic-pareto.py: the plotting script of the basic-pareto experiment

  A shallow embedding of
  [flip-docs/resources/experiments/basic-pareto.py].  The script builds
  file paths, defines a reference density and drives the plotting
  libraries; the embedding keeps the pure part as functions and the
  library calls as the actions of a small program monad, run against an
  arbitrary implementation of the libraries. *)

From Stdlib Require Import ZArith QArith List String Ascii Lia Bool.
From Stdlib Require Import DecimalString DecimalZ DecimalPos.
Import ListNotations.

Local Open Scope string_scope.
Local Open Scope Z_scope.

(** ** Python builtins used by the script *)

Module Py.

(** [str(i)] on an integer: its decimal numeral, with a leading minus
    sign for a negative one. *)
Definition str (i : Z) : string := NilZero.string_of_int (Z.to_int i).

(** [ord(c)] on a one-character string. *)
Definition ord (c : ascii) : Z := Z.of_N (N_of_ascii c).

(** [chr(n)] on the ASCII range, [0 <= n < 128], where a code point is
    one character of a [string].  The script calls it on [ord('a') + i]
    for the loop indices [i] = 0, 1, 2 only.  Outside that range the
    definition is not Python's [chr], which raises below 0 and returns
    wider code points from 128 on, and nothing is stated of it there. *)
Definition chr (n : Z) : string :=
  String (ascii_of_N (Z.to_N n)) EmptyString.

(** [len(l)] on a list. *)
Definition len {A : Type} (l : list A) : Z := Z.of_nat (List.length l).

End Py.

(** ** Module-level constants and the two functions of the script *)

Definition name : string := "basic-pareto".
Definition dir : string := "../../../flip-bench/experiments/basic-pareto/".

(** [def data_loc(i): return dir + "basic-pareto-pdf-" + str(i) + ".out"] *)
Definition data_loc (i : Z) : string :=
  ((dir ++ "basic-pareto-pdf-") ++ Py.str i) ++ ".out".

(** The reference density.  [pareto] is [scipy.stats.pareto]; its density
  [pareto.pdf(x, b)] is a function of the point and of the shape, taken
  here over exact rationals. *)
Section Reference.

Variable pareto_pdf : Q -> Z -> Q.

(** [def expected(x, i = -1): return pareto.pdf(x, 1)] *)
Definition expected (x : Q) (i : Z) : Q := pareto_pdf x 1.

(** A call that leaves the second argument out takes the default. *)
Definition expected_default (x : Q) : Q := expected x (-1).

End Reference.

(** The same function with the state of the interpreter explicit: a call
    of [pareto.pdf] may read and change it, and [expected] does what that
    one call does. *)
Section Stateful.

Variable mem : Type.
Variable pdf_call : Q -> Z -> mem -> Q * mem.

Definition expected_call (x : Q) (i : Z) (m : mem) : Q * mem :=
  pdf_call x 1 m.

Definition expected_call_default (x : Q) (m : mem) : Q * mem :=
  expected_call x (-1) m.

End Stateful.

(** A library function that is stateless: its value does not depend on
    the state it is called in, and it leaves that state as it is. *)
Definition stateless {mem : Type} (f : Q -> Z -> mem -> Q * mem) : Prop :=
  forall (x : Q) (b : Z) (m m' : mem),
    fst (f x b m) = fst (f x b m') /\ snd (f x b m) = m.

(** The density of the Pareto distribution as [scipy.stats.pareto]
  documents it: [b / x**(b+1)] on the support [x >= 1], zero outside. *)
Definition pareto_density (x : Q) (b : Z) : Q :=
  if Qle_bool 1 x then (inject_Z b / x ^ (b + 1))%Q else 0%Q.

(** What the script relies on from the statistics library. *)
Definition is_pareto_pdf (pdf : Q -> Z -> Q) : Prop :=
  forall (x : Q) (b : Z), 0 < b -> (pdf x b == pareto_density x b)%Q.

(** The remaining module-level assignments, in the order of the script. *)

Definition xmin : Z := 0.
Definition xmax : Z := 10.
Definition ymin : Z := 0.
Definition ymax : Z := 1.

Definition data_counts : list Z := [40; 60; 220].

Definition countmin : Z := 40.
Definition countmax : Z := 500.
Definition rearr_start : Z := 50.
Definition rearr_period : Z := 100.
Definition kld_max : Q := 25 # 100.

Definition kld_data_loc : string := dir ++ "basic-pareto-kld.out".

Definition start : Z := 10.
Definition end_ : Z := 500.
Definition step : Z := 10.
Definition fps : Z := 4.

(** The title of the density subplot drawn at loop index [i]:
    ["(" + chr(ord('a') + i) + ")" + " pdf at update count: " + str(data_count)] *)
Definition annotation (i data_count : Z) : string :=
  ((("(" ++ Py.chr (Py.ord "a" + i)) ++ ")") ++ " pdf at update count: ")
  ++ Py.str data_count.

(** ** The library calls of the script

    [matplotlib], [pdfplot] and [kldplot] are outside the script.  A call
    into them is an action carrying the arguments the script passes; what
    it returns (a figure, an axes or an animation handle) and whether it
    raises is left to the implementation the script is run against. *)

Section Interface.

Context {figure axes animation exn : Type}.

Inductive call : Type :=
| py_import (modname : string)
| py_from_import (modname member : string)
| plt_figure (figsize : Z * Z)
| plt_subplot (nrows ncols index : Z)
| ax_set_title (ax : axes) (label : string)
| pdfplot_bar (ax : axes) (f : Q -> Z -> Q) (loc : string) (x0 x1 y0 y1 : Z)
| kldplot (ax : axes) (loc : string) (kmax : Q) (cmin cmax rstart rperiod : Z)
| plt_savefig (fname : string)
| animated_pdfplot_errorbar (loc : Z -> string) (first last stride : Z)
    (f : Q -> Z -> Q) (x0 x1 y0 y1 : Z)
| animated_pdfplot_bar (loc : Z -> string) (first last stride : Z)
    (f : Q -> Z -> Q) (x0 x1 y0 y1 : Z)
| animation_save (anim : animation) (fname writer : string) (rate : Z).

(** What a call hands back when it returns. *)
Definition result (c : call) : Type :=
  match c with
  | plt_figure _ => figure
  | plt_subplot _ _ _ => axes
  | animated_pdfplot_errorbar _ _ _ _ _ _ _ _ _ => animation
  | animated_pdfplot_bar _ _ _ _ _ _ _ _ _ => animation
  | _ => unit
  end.

(** Programs over the calls: a statement sequence in which each call binds
    its result for the statements after it, and [try: body except
    Exception as e: handler], followed by the statements after it. *)
Inductive prog (A : Type) : Type :=
| Ret (a : A)
| Do (c : call) (k : result c -> prog A)
| Try (B : Type) (body : prog B) (handler : exn -> prog B) (k : B -> prog A).

Arguments Ret {A} a.
Arguments Do {A} c k.
Arguments Try {A B} body handler k.

Fixpoint bind {A B : Type} (p : prog A) (f : A -> prog B) : prog B :=
  match p with
  | Ret a => f a
  | Do c k => Do c (fun r => bind (k r) f)
  | Try body handler k => Try body handler (fun b => bind (k b) f)
  end.

(** A program in which no [try] occurs. *)
Fixpoint no_try {A : Type} (p : prog A) : Prop :=
  match p with
  | Ret _ => True
  | Do c k => forall r, no_try (k r)
  | Try _ _ _ => False
  end.

Definition perform (c : call) : prog (result c) := Do c Ret.

(** [for x in l: body], with the variables the body assigns threaded
    through the iterations. *)
Fixpoint for_each {A S : Type} (l : list A) (body : A -> S -> prog S) (s : S)
  : prog S :=
  match l with
  | [] => Ret s
  | a :: l' => bind (body a s) (for_each l' body)
  end.

Local Notation "x <- p ;; q" := (bind p (fun x => q))
  (at level 61, p at next level, right associativity).
Local Notation "p ;; q" := (bind p (fun _ => q))
  (at level 61, right associativity).

Variable pareto_pdf : Q -> Z -> Q.

(** The body of [for data_count in data_counts], on the counter [i]. *)
Definition density_subplot (data_count i : Z) : prog Z :=
  ax <- perform (plt_subplot 1 (Py.len data_counts + 1) (i + 1)) ;;
  perform (ax_set_title ax (annotation i data_count)) ;;
  perform (pdfplot_bar ax (expected pareto_pdf) (data_loc data_count)
             xmin xmax ymin ymax) ;;
  Ret (i + 1).

(** The statements of the script from [plt.figure] on. *)
Definition script : prog unit :=
  perform (plt_figure (20, 5)) ;;
  for_each data_counts density_subplot 0 ;;
  ax <- perform (plt_subplot 1 (Py.len data_counts + 1)
                   (Py.len data_counts + 1)) ;;
  perform (ax_set_title ax "(d) KL-divergence") ;;
  perform (kldplot ax kld_data_loc kld_max countmin countmax
             rearr_start rearr_period) ;;
  perform (plt_savefig (name ++ ".pdf")) ;;
  perform (plt_savefig (name ++ ".png")) ;;
  utd_animation1 <- perform (animated_pdfplot_errorbar data_loc start end_
                               step (expected pareto_pdf)
                               xmin xmax ymin ymax) ;;
  perform (animation_save utd_animation1 (name ++ "-errorbar.gif")
             "imagemagick" fps) ;;
  utd_animation2 <- perform (animated_pdfplot_bar data_loc start end_ step
                               (expected pareto_pdf) xmin xmax ymin ymax) ;;
  perform (animation_save utd_animation2 (name ++ "-histo.gif")
             "imagemagick" fps) ;;
  Ret tt.

(** The import statements at the head of the file. *)
Definition imports : prog unit :=
  perform (py_import "numpy") ;;
  perform (py_from_import "scipy.stats" "pareto") ;;
  perform (py_import "matplotlib") ;;
  perform (py_import "matplotlib.pyplot") ;;
  perform (py_import "preprocessing") ;;
  perform (py_import "pdfplot") ;;
  perform (py_import "kldplot") ;;
  Ret tt.

(** The whole file: the imports, then the statements.  The assignments
    and the two [def]s between them call nothing. *)
Definition basic_pareto : prog unit :=
  imports ;; script.

(** ** Running a program against an implementation of the libraries *)

Context {world : Type}.

(** An implementation answers a call in a state of the world (the files
    on disk, the current figure) with a result or an exception, and a new
    state. *)
Variable lib : forall c : call, world -> (exn + result c) * world.

(** One executed call, with what came back. *)
Record entry : Type := Entry { e_call : call; e_res : exn + result e_call }.

Inductive outcome (A : Type) : Type :=
| Done (a : A)
| Raised (e : exn).

Arguments Done {A} a.
Arguments Raised {A} e.

(** A raising call ends the statements it is in with its exception: the
    continuation is dropped.  Under a [try] the handler takes over, and
    the statements after the [try] go on from what it returns. *)
Fixpoint exec {A : Type} (p : prog A) (w : world)
  : outcome A * list entry * world :=
  match p with
  | Ret a => (Done a, [], w)
  | Do c k =>
      match lib c w with
      | (inl e, w') => (Raised e, [Entry c (inl e)], w')
      | (inr r, w') =>
          let '(o, tr, w'') := exec (k r) w' in
          (o, Entry c (inr r) :: tr, w'')
      end
  | Try body handler k =>
      match exec body w with
      | (Done b, tr, w1) =>
          let '(o, tr', w2) := exec (k b) w1 in (o, (tr ++ tr')%list, w2)
      | (Raised e, tr, w1) =>
          match exec (handler e) w1 with
          | (Done b, tr1, w2) =>
              let '(o, tr2, w3) := exec (k b) w2 in
              (o, (tr ++ tr1 ++ tr2)%list, w3)
          | (Raised e', tr1, w2) => (Raised e', (tr ++ tr1)%list, w2)
          end
      end
  end.

(** The outcome of a run with its trace, and the world it leaves. *)
Definition run {A : Type} (p : prog A) (w : world)
  : outcome A * list entry :=
  fst (exec p w).

Definition end_world {A : Type} (p : prog A) (w : world) : world :=
  snd (exec p w).

(** ** Reading a trace *)

Definition raise_of (en : entry) : option exn :=
  match e_res en with inl e => Some e | inr _ => None end.

Definition raised (en : entry) : bool :=
  match raise_of en with Some _ => true | None => false end.

Definition calls (tr : list entry) : list call := map e_call tr.

(** The axes created, each with the grid position asked for. *)
Definition subplot_of (en : entry) : list (Z * Z * Z * axes) :=
  match e_call en as c return exn + result c -> list (Z * Z * Z * axes) with
  | plt_subplot r c i =>
      fun res => match res with inr ax => [(r, c, i, ax)] | inl _ => [] end
  | _ => fun _ => []
  end (e_res en).

Definition subplots (tr : list entry) : list (Z * Z * Z * axes) :=
  flat_map subplot_of tr.

(** The animations created, each with its handle. *)
Inductive plot_style : Type := errorbar | bar.

Record sweep : Type := Sweep {
  sw_loc : Z -> string;
  sw_start : Z; sw_end : Z; sw_step : Z;
  sw_ref : Q -> Z -> Q;
  sw_xmin : Z; sw_xmax : Z; sw_ymin : Z; sw_ymax : Z }.

Definition animation_of (en : entry) : list (plot_style * sweep * animation) :=
  match e_call en as c
        return exn + result c -> list (plot_style * sweep * animation) with
  | animated_pdfplot_errorbar l a b s f x0 x1 y0 y1 =>
      fun res =>
        match res with
        | inr h => [(errorbar, Sweep l a b s f x0 x1 y0 y1, h)]
        | inl _ => []
        end
  | animated_pdfplot_bar l a b s f x0 x1 y0 y1 =>
      fun res =>
        match res with
        | inr h => [(bar, Sweep l a b s f x0 x1 y0 y1, h)]
        | inl _ => []
        end
  | _ => fun _ => []
  end (e_res en).

Definition animations (tr : list entry)
  : list (plot_style * sweep * animation) :=
  flat_map animation_of tr.

(** The calls of one kind, in the order they were made. *)
Definition titles (cs : list call) : list (axes * string) :=
  flat_map (fun c => match c with
                     | ax_set_title ax t => [(ax, t)]
                     | _ => []
                     end) cs.

Definition bar_plots (cs : list call)
  : list (axes * (Q -> Z -> Q) * string * (Z * Z * Z * Z)) :=
  flat_map (fun c => match c with
                     | pdfplot_bar ax f loc x0 x1 y0 y1 =>
                         [(ax, f, loc, (x0, x1, y0, y1))]
                     | _ => []
                     end) cs.

Definition kld_plots (cs : list call)
  : list (axes * string * Q * (Z * Z * Z * Z)) :=
  flat_map (fun c => match c with
                     | kldplot ax loc k a b s p => [(ax, loc, k, (a, b, s, p))]
                     | _ => []
                     end) cs.

Definition saves (cs : list call) : list (animation * string * string * Z) :=
  flat_map (fun c => match c with
                     | animation_save h fname wr r => [(h, fname, wr, r)]
                     | _ => []
                     end) cs.

(** The files a call is asked to write. *)
Definition written (c : call) : list string :=
  match c with
  | plt_savefig fname => [fname]
  | animation_save _ fname _ _ => [fname]
  | _ => []
  end.

Definition files_written (cs : list call) : list string :=
  flat_map written cs.

(** What is on disk in a world. *)
Variable disk : world -> list string.


(** A file name without a path separator names a file of the current
    directory. *)
Definition in_current_directory (fname : string) : bool :=
  match index 0 "/" fname with
  | None => true
  | Some _ => false
  end.

(** The grid positions asked of [plt.subplot], returned or not. *)
Definition subplot_requests (cs : list call) : list (Z * Z * Z) :=
  flat_map (fun c => match c with
                     | plt_subplot r c i => [(r, c, i)]
                     | _ => []
                     end) cs.

(** The data file a call is given to plot. *)
Definition plotted (c : call) : list string :=
  match c with
  | pdfplot_bar _ _ loc _ _ _ _ => [loc]
  | kldplot _ loc _ _ _ _ _ => [loc]
  | _ => []
  end.

Definition files_plotted (cs : list call) : list string :=
  flat_map plotted cs.

End Interface.

Arguments call : clear implicits.
Arguments prog : clear implicits.
Arguments entry : clear implicits.
Arguments outcome : clear implicits.

Arguments Ret {figure axes animation exn A} a.
Arguments Do {figure axes animation exn A} c k.
Arguments Try {figure axes animation exn A B} body handler k.
Arguments Done {exn A} a.
Arguments Raised {exn A} e.

(** ** A file-backed implementation, for concrete runs

    The world is the list of the files on disk.  A plot of a data file
    raises when the file is absent, a save adds its file; an axes handle
    is its position in the grid and an animation handle its style. *)

Definition on_disk (p : string) (w : list string) : bool :=
  existsb (String.eqb p) w.

Definition read_file (p : string) (w : list string)
  : (string + unit) * list string :=
  if on_disk p w then (inr tt, w) else (inl "FileNotFoundError", w).

Definition file_lib (c : call Z plot_style) (w : list string)
  : (string + @result unit Z plot_style c) * list string :=
  match c as c0 return (string + @result unit Z plot_style c0) * list string
  with
  | py_import _ => (inr tt, w)
  | py_from_import _ _ => (inr tt, w)
  | plt_figure _ => (inr tt, w)
  | plt_subplot _ _ i => (inr i, w)
  | ax_set_title _ _ => (inr tt, w)
  | pdfplot_bar _ _ loc _ _ _ _ => read_file loc w
  | kldplot _ loc _ _ _ _ _ => read_file loc w
  | plt_savefig fname => (inr tt, fname :: w)
  | animated_pdfplot_errorbar _ _ _ _ _ _ _ _ _ => (inr errorbar, w)
  | animated_pdfplot_bar _ _ _ _ _ _ _ _ _ => (inr bar, w)
  | animation_save _ fname _ _ => (inr tt, fname :: w)
  end.

(** An implementation that serves every call. *)
Definition ideal_lib (c : call Z plot_style) (w : unit)
  : (string + @result unit Z plot_style c) * unit :=
  match c as c0 return (string + @result unit Z plot_style c0) * unit with
  | plt_subplot _ _ i => (inr i, w)
  | animated_pdfplot_errorbar _ _ _ _ _ _ _ _ _ => (inr errorbar, w)
  | animated_pdfplot_bar _ _ _ _ _ _ _ _ _ => (inr bar, w)
  | py_import _ => (inr tt, w)
  | py_from_import _ _ => (inr tt, w)
  | plt_figure _ => (inr tt, w)
  | ax_set_title _ _ => (inr tt, w)
  | pdfplot_bar _ _ _ _ _ _ _ => (inr tt, w)
  | kldplot _ _ _ _ _ _ _ => (inr tt, w)
  | plt_savefig _ => (inr tt, w)
  | animation_save _ _ _ _ => (inr tt, w)
  end.

(** For contrast, the file with all its statements under a handler that
    drops the exception: [try: ... except Exception: pass]. *)
Definition swallowing {figure axes animation exn : Type}
    (pdf : Q -> Z -> Q) : prog figure axes animation exn unit :=
  Try (basic_pareto pdf) (fun _ => Ret tt) Ret.

(** A disk holding the inputs of the static figure, and one on which the
    divergence series is missing. *)
Definition inputs : list string := kld_data_loc :: map data_loc data_counts.
Definition inputs_without_kld : list string := map data_loc data_counts.

(** * Properties *)

(** ** Concrete values *)

Example str_40 : Py.str 40 = "40".
Proof. reflexivity. Qed.

Example str_neg : Py.str (-1) = "-1".
Proof. reflexivity. Qed.

Example str_zero : Py.str 0 = "0".
Proof. reflexivity. Qed.

Example data_loc_220 :
  data_loc 220 =
  "../../../flip-bench/experiments/basic-pareto/basic-pareto-pdf-220.out".
Proof. reflexivity. Qed.

Example data_loc_neg :
  data_loc (-7) =
  "../../../flip-bench/experiments/basic-pareto/basic-pareto-pdf--7.out".
Proof. reflexivity. Qed.

Example annotation_1_60 : annotation 1 60 = "(b) pdf at update count: 60".
Proof. reflexivity. Qed.

Example expected_at_2 : (expected pareto_density 2 (-1) == 1 # 4)%Q.
Proof. reflexivity. Qed.

Example expected_at_half : (expected pareto_density (1 # 2) 7 == 0)%Q.
Proof. reflexivity. Qed.

(** ** String concatenation *)

Lemma append_assoc (a b c : string) : (a ++ b) ++ c = a ++ (b ++ c).
Proof.
  induction a as [|x a IH]; simpl; [reflexivity | now rewrite IH].
Qed.

Lemma length_append (a b : string) :
  String.length (a ++ b) = (String.length a + String.length b)%nat.
Proof.
  induction a as [|x a IH]; simpl; [reflexivity | now rewrite IH].
Qed.

Lemma append_inv_head (p a b : string) : p ++ a = p ++ b -> a = b.
Proof.
  induction p as [|x p IH]; simpl; intros H; [exact H|].
  injection H as H. now apply IH.
Qed.

Lemma append_inv_tail (s a b : string) : a ++ s = b ++ s -> a = b.
Proof.
  revert b. induction a as [|x a IH]; intros [|y b] H; simpl in H.
  - reflexivity.
  - apply (f_equal String.length) in H. simpl in H.
    rewrite length_append in H. lia.
  - apply (f_equal String.length) in H. simpl in H.
    rewrite length_append in H. lia.
  - injection H as -> H. f_equal. now apply IH.
Qed.

(** ** Decimal numerals *)

(** Reading the numeral of an integer back gives the integer. *)
Lemma str_parse (i : Z) :
  option_map Z.of_int (NilZero.int_of_string (Py.str i)) = Some i.
Proof.
  unfold Py.str. rewrite NilZero.isi.
  - simpl. now rewrite DecimalZ.of_to.
  - destruct i as [|p|p]; simpl; try discriminate.
    intros [= H]. now apply (DecimalPos.Unsigned.to_uint_nonnil p).
  - destruct i as [|p|p]; simpl; try discriminate.
    intros [= H]. now apply (DecimalPos.Unsigned.to_uint_nonnil p).
Qed.

Lemma str_inj (i j : Z) : Py.str i = Py.str j -> i = j.
Proof.
  intros H. generalize (str_parse i). rewrite H, str_parse. now intros [= ->].
Qed.

(** ** The snapshot path *)

(** C1: for every integer index [i], [data_loc i] is the fixed template
    ["../../../flip-bench/experiments/basic-pareto/basic-pareto-pdf-"],
    then the decimal numeral of [i], then [".out"]. *)
Theorem data_loc_template (i : Z) :
  data_loc i =
  "../../../flip-bench/experiments/basic-pareto/basic-pareto-pdf-"
  ++ Py.str i ++ ".out".
Proof.
  unfold data_loc. now rewrite append_assoc.
Qed.

(** C8: [data_loc] is injective on integer indices: two distinct indices
    never give the same snapshot path. *)
Theorem data_loc_injective (i j : Z) : i <> j -> data_loc i <> data_loc j.
Proof.
  intros Hij H. apply Hij, str_inj.
  rewrite !data_loc_template in H.
  apply append_inv_head in H. now apply append_inv_tail in H.
Qed.

Lemma data_loc_injective_witness : data_loc 40 <> data_loc 60.
Proof.
  apply (data_loc_injective 40 60). lia.
Defined.

(** ** The reference density *)

Lemma pareto_density_is_pareto_pdf : is_pareto_pdf pareto_density.
Proof.
  intros x b _. reflexivity.
Qed.

(** C2: for a non-negative [x], [expected x] is the density of the
    standard Pareto distribution of shape 1, whatever the index: [1/x^2]
    from 1 on and [0] below 1. *)
Theorem expected_pareto_shape_1 (pdf : Q -> Z -> Q) (x : Q) (i : Z) :
  is_pareto_pdf pdf ->
  (0 <= x)%Q ->
  ((1 <= x)%Q -> (expected pdf x i == 1 / x ^ 2)%Q) /\
  ((x < 1)%Q -> (expected pdf x i == 0)%Q).
Proof.
  intros Hpdf _. unfold expected.
  assert (Hx : (pdf x 1%Z == pareto_density x 1%Z)%Q) by (apply Hpdf; lia).
  unfold pareto_density in Hx. split; intros H.
  - apply Qle_bool_iff in H. rewrite H in Hx. exact Hx.
  - destruct (Qle_bool 1 x) eqn:E; [|exact Hx].
    apply Qle_bool_iff in E. exfalso. now apply (Qlt_not_le x 1).
Qed.

Lemma expected_pareto_shape_1_witness :
  (expected pareto_density 3 (-1) == 1 # 9)%Q /\
  (expected pareto_density (1 # 3) (-1) == 0)%Q.
Proof.
  split.
  - rewrite (proj1 (expected_pareto_shape_1 pareto_density 3 (-1)
                      pareto_density_is_pareto_pdf ltac:(discriminate)));
      [reflexivity | discriminate].
  - apply (proj2 (expected_pareto_shape_1 pareto_density (1 # 3) (-1)
                    pareto_density_is_pareto_pdf ltac:(discriminate))).
    reflexivity.
Defined.

(** The index plays no part in the value. *)
Lemma expected_ignores_index (pdf : Q -> Z -> Q) (x : Q) (i j : Z) :
  expected pdf x i = expected pdf x j /\
  expected pdf x i = expected_default pdf x.
Proof.
  split; reflexivity.
Qed.

(** Over a library function that keeps no state, the call is the value
    of [expected] and the state is untouched. *)
Lemma expected_call_value {mem : Type} (g : Q -> Z -> Q)
      (x : Q) (i : Z) (m : mem) :
  expected_call mem (fun x b m => (g x b, m)) x i m = (expected g x i, m).
Proof.
  reflexivity.
Qed.

(** C5: [expected] is a stateless function of [x] alone, [pareto.pdf]
    being one: whatever the index, given or left to its default, and
    whatever the state it is called in, a call on [x] gives the same
    value, and it leaves the state as it found it. *)
Theorem expected_stateless {mem : Type} (pdf_call : Q -> Z -> mem -> Q * mem)
        (x : Q) (i j : Z) (m m' : mem) :
  stateless pdf_call ->
  fst (expected_call mem pdf_call x i m) =
  fst (expected_call mem pdf_call x j m') /\
  fst (expected_call mem pdf_call x i m) =
  fst (expected_call_default mem pdf_call x m') /\
  snd (expected_call mem pdf_call x i m) = m /\
  stateless (expected_call mem pdf_call).
Proof.
  intros Hpdf. unfold expected_call_default, expected_call.
  split; [apply (Hpdf x 1 m m')|]. split; [apply (Hpdf x 1 m m')|].
  split; [apply (Hpdf x 1 m m')|].
  intros y b n n'. apply (Hpdf y 1 n n').
Qed.

Lemma expected_stateless_witness :
  fst (expected_call nat (fun x b m => (pareto_density x b, m)) 2 7 0%nat) =
  fst (expected_call nat (fun x b m => (pareto_density x b, m)) 2 (-1) 5%nat)
  /\
  fst (expected_call nat (fun x b m => (pareto_density x b, m)) 2 7 0%nat) =
  fst (expected_call_default nat (fun x b m => (pareto_density x b, m))
         2 5%nat) /\
  snd (expected_call nat (fun x b m => (pareto_density x b, m)) 2 7 0%nat)
  = 0%nat /\
  stateless (expected_call nat (fun x b m => (pareto_density x b, m))).
Proof.
  apply (expected_stateless (fun x b (m : nat) => (pareto_density x b, m))
           2 7 (-1) 0%nat 5%nat).
  intros x b m m'. split; reflexivity.
Defined.

(** ** Runs of the script *)

Example run_ideal :
  fst (run ideal_lib (script pareto_density) tt) = Done tt /\
  List.length (snd (run ideal_lib (script pareto_density) tt)) = 19%nat.
Proof. split; reflexivity. Qed.

Example run_inputs :
  fst (run file_lib (script pareto_density) inputs) = Done tt.
Proof. reflexivity. Qed.

Example run_without_kld :
  fst (run file_lib (script pareto_density) inputs_without_kld)
  = Raised "FileNotFoundError" /\
  files_written
    (calls (snd (run file_lib (script pareto_density) inputs_without_kld)))
  = [].
Proof. split; reflexivity. Qed.

Example run_file :
  fst (run file_lib (basic_pareto pareto_density) inputs) = Done tt /\
  List.length (snd (run file_lib (basic_pareto pareto_density) inputs))
  = 26%nat /\
  end_world file_lib (basic_pareto pareto_density) inputs =
  ("basic-pareto-histo.gif" :: "basic-pareto-errorbar.gif"
   :: "basic-pareto.png" :: "basic-pareto.pdf" :: inputs)%list.
Proof. repeat split; reflexivity. Qed.

(** Under a handler the same failure is caught and the run completes. *)
Example run_swallowing :
  fst (run file_lib (swallowing pareto_density) inputs_without_kld)
  = Done tt /\
  existsb raised
    (snd (run file_lib (swallowing pareto_density) inputs_without_kld))
  = true.
Proof. split; reflexivity. Qed.

Section Runs.

Context {figure axes animation exn world : Type}.
Variable lib :
  forall c : call axes animation,
    world -> (exn + @result figure axes animation c) * world.

Lemma run_Do {A : Type} (c : call axes animation)
      (k : result c -> prog figure axes animation exn A) (w : world) :
  run lib (Do c k) w =
  match lib c w with
  | (inl e, _) => (Raised e, [Entry c (inl e)])
  | (inr r, w') =>
      (fst (run lib (k r) w'), Entry c (inr r) :: snd (run lib (k r) w'))
  end.
Proof.
  unfold run. cbn [exec]. destruct (lib c w) as [[e | r] w']; [reflexivity|].
  now destruct (exec lib (k r) w') as [[o tr] w''].
Qed.


(** In a program without [try], only the last entry of a trace can be a
    raising call, and then the run ends with its exception. *)
Lemma run_raise_last {A : Type} (p : prog figure axes animation exn A)
      (w : world) :
  no_try p ->
  forall (tr1 tr2 : list (entry figure axes animation exn))
         (c : call axes animation) (e : exn),
    snd (run lib p w) = (tr1 ++ Entry c (inl e) :: tr2)%list ->
    tr2 = [] /\ fst (run lib p w) = Raised e.
Proof.
  revert w. induction p as [A a | A c0 k IH | A B body _ handler _ k _];
    intros w Hp tr1 tr2 c e H.
  - cbn in H. now destruct tr1.
  - rewrite run_Do in *. destruct (lib c0 w) as [[e0 | r] w']; simpl in *.
    + destruct tr1 as [|en tr1]; simpl in H.
      * split.
        -- apply (f_equal (@tl _)) in H. now symmetry.
        -- apply (f_equal (fun t => option_map raise_of (hd_error t))) in H.
           now injection H as ->.
      * apply (f_equal (@tl _)) in H. now destruct tr1.
    + destruct tr1 as [|en tr1]; simpl in H.
      * apply (f_equal (fun t => option_map raise_of (hd_error t))) in H.
        discriminate H.
      * apply (f_equal (@tl _)) in H. simpl in H.
        now apply (IH r w' (Hp r) tr1 tr2 c).
  - contradiction Hp.
Qed.


Variable pdf : Q -> Z -> Q.

(** One step of a run whose call is known. *)
Ltac step_call :=
  match goal with
  | |- context [lib ?c ?w] =>
      let e := fresh "e" in
      let r := fresh "r" in
      let w' := fresh "w" in
      destruct (lib c w) as [[e | r] w'] eqn:?; cbn [fst snd] in *
  end.

(** The trace of a run of the script that completes: the nineteen calls,
    each using the handles the earlier ones returned. *)
Lemma script_trace (w : world) :
  fst (run lib (script pdf) w) = Done tt ->
  exists (fg : figure) (a1 a2 a3 a4 : axes) (h1 h2 : animation),
    snd (run lib (script pdf) w) =
    [ Entry (plt_figure (20, 5)) (inr fg);
      Entry (plt_subplot 1 4 1) (inr a1);
      Entry (ax_set_title a1 "(a) pdf at update count: 40") (inr tt);
      Entry (pdfplot_bar a1 (expected pdf) (data_loc 40) 0 10 0 1) (inr tt);
      Entry (plt_subplot 1 4 2) (inr a2);
      Entry (ax_set_title a2 "(b) pdf at update count: 60") (inr tt);
      Entry (pdfplot_bar a2 (expected pdf) (data_loc 60) 0 10 0 1) (inr tt);
      Entry (plt_subplot 1 4 3) (inr a3);
      Entry (ax_set_title a3 "(c) pdf at update count: 220") (inr tt);
      Entry (pdfplot_bar a3 (expected pdf) (data_loc 220) 0 10 0 1) (inr tt);
      Entry (plt_subplot 1 4 4) (inr a4);
      Entry (ax_set_title a4 "(d) KL-divergence") (inr tt);
      Entry (kldplot a4 kld_data_loc kld_max 40 500 50 100) (inr tt);
      Entry (plt_savefig "basic-pareto.pdf") (inr tt);
      Entry (plt_savefig "basic-pareto.png") (inr tt);
      Entry (animated_pdfplot_errorbar data_loc 10 500 10 (expected pdf)
               0 10 0 1) (inr h1);
      Entry (animation_save h1 "basic-pareto-errorbar.gif" "imagemagick" 4)
            (inr tt);
      Entry (animated_pdfplot_bar data_loc 10 500 10 (expected pdf)
               0 10 0 1) (inr h2);
      Entry (animation_save h2 "basic-pareto-histo.gif" "imagemagick" 4)
            (inr tt) ].
Proof.
  unfold run, script, density_subplot, perform.
  cbn [bind for_each data_counts exec].
  do 19 (step_call; [discriminate|]).
  intros _.
  repeat match goal with x : result _ |- _ => cbn [result] in x end.
  repeat match goal with x : unit |- _ => destruct x end.
  do 7 eexists. reflexivity.
Qed.

Lemma basic_pareto_no_try :
  @no_try figure axes animation exn unit (basic_pareto pdf).
Proof.
  unfold basic_pareto, imports, script, density_subplot, perform.
  cbn. intros. exact I.
Qed.



(** C4: the file installs no exception handler: no [try] occurs in it,
    from the imports to the last save.  So whenever a call of a run
    raises, an import, a plot or a save, that call is the last one
    executed and the run ends with the very exception it raised. *)
Theorem failure_aborts (w : world)
        (tr1 tr2 : list (entry figure axes animation exn))
        (c : call axes animation) (e : exn) :
  @no_try figure axes animation exn unit (basic_pareto pdf) /\
  (snd (run lib (basic_pareto pdf) w) = (tr1 ++ Entry c (inl e) :: tr2)%list
   -> tr2 = [] /\ fst (run lib (basic_pareto pdf) w) = Raised e).
Proof.
  split; [apply basic_pareto_no_try|].
  apply run_raise_last, basic_pareto_no_try.
Qed.

(** C6: a completed run draws exactly three density plots, for the update
    counts 40, 60 and 220 in this order.  The plot for a count [c] is a
    bar plot of the file [data_loc c] against [expected], on the axes of
    its own subplot of the 1 x 4 grid, within [0, 10] x [0, 1]. *)
Theorem density_subplots (w : world) :
  fst (run lib (script pdf) w) = Done tt ->
  exists a1 a2 a3 a4 : axes,
    subplots (snd (run lib (script pdf) w)) =
    [ (1, 4, 1, a1); (1, 4, 2, a2); (1, 4, 3, a3); (1, 4, 4, a4) ] /\
    bar_plots (calls (snd (run lib (script pdf) w))) =
    [ (a1, expected pdf, data_loc 40, (0, 10, 0, 1));
      (a2, expected pdf, data_loc 60, (0, 10, 0, 1));
      (a3, expected pdf, data_loc 220, (0, 10, 0, 1)) ].
Proof.
  intros Hdone.
  destruct (script_trace w Hdone) as (fg & a1 & a2 & a3 & a4 & h1 & h2 & ->).
  exists a1, a2, a3, a4. split; reflexivity.
Qed.

(** C7: the divergence series has one fixed path, [dir] followed by
    basic-pareto-kld.out, and a completed run passes it to exactly one
    [kldplot] call, drawn on the axes of the last subplot. *)
Theorem divergence_plot (w : world) :
  fst (run lib (script pdf) w) = Done tt ->
  kld_data_loc =
  "../../../flip-bench/experiments/basic-pareto/basic-pareto-kld.out" /\
  exists (before : list (Z * Z * Z * axes)) (a : axes),
    subplots (snd (run lib (script pdf) w)) =
    (before ++ [(1, 4, 4, a)])%list /\
    kld_plots (calls (snd (run lib (script pdf) w))) =
    [ (a, kld_data_loc, kld_max, (40, 500, 50, 100)) ].
Proof.
  intros Hdone. split; [reflexivity|].
  destruct (script_trace w Hdone) as (fg & a1 & a2 & a3 & a4 & h1 & h2 & ->).
  exists [ (1, 4, 1, a1); (1, 4, 2, a2); (1, 4, 3, a3) ], a4.
  split; reflexivity.
Qed.

(** C9: a completed run creates two animations, an error-bar one and a
    bar one, from the same arguments: the path function [data_loc], the
    sweep 10, 500, 10, the reference [expected] and the bounds
    [0, 10] x [0, 1].  Each is saved once, with the imagemagick writer at
    4 frames per second. *)
Theorem animations_agree (w : world) :
  fst (run lib (script pdf) w) = Done tt ->
  exists h1 h2 : animation,
    animations (snd (run lib (script pdf) w)) =
    [ (errorbar, Sweep data_loc 10 500 10 (expected pdf) 0 10 0 1, h1);
      (bar, Sweep data_loc 10 500 10 (expected pdf) 0 10 0 1, h2) ] /\
    saves (calls (snd (run lib (script pdf) w))) =
    [ (h1, "basic-pareto-errorbar.gif", "imagemagick", 4);
      (h2, "basic-pareto-histo.gif", "imagemagick", 4) ].
Proof.
  intros Hdone.
  destruct (script_trace w Hdone) as (fg & a1 & a2 & a3 & a4 & h1 & h2 & ->).
  exists h1, h2. split; reflexivity.
Qed.

(** C10: a completed run sets four titles, one per subplot in creation
    order: (a), (b), (c) with the update counts 40, 60, 220, then
    (d) KL-divergence.  The first three letters are [chr(ord('a') + i)]
    at the loop indices 0, 1, 2 and the fourth title starts with the
    letter at index 3. *)
Theorem subplot_titles (w : world) :
  fst (run lib (script pdf) w) = Done tt ->
  exists a1 a2 a3 a4 : axes,
    subplots (snd (run lib (script pdf) w)) =
    [ (1, 4, 1, a1); (1, 4, 2, a2); (1, 4, 3, a3); (1, 4, 4, a4) ] /\
    titles (calls (snd (run lib (script pdf) w))) =
    [ (a1, "(a) pdf at update count: 40");
      (a2, "(b) pdf at update count: 60");
      (a3, "(c) pdf at update count: 220");
      (a4, "(d) KL-divergence") ] /\
    map snd (titles (calls (snd (run lib (script pdf) w)))) =
    [ "(" ++ Py.chr (Py.ord "a" + 0) ++ ") pdf at update count: "
          ++ Py.str 40;
      "(" ++ Py.chr (Py.ord "a" + 1) ++ ") pdf at update count: "
          ++ Py.str 60;
      "(" ++ Py.chr (Py.ord "a" + 2) ++ ") pdf at update count: "
          ++ Py.str 220;
      "(" ++ Py.chr (Py.ord "a" + 3) ++ ") KL-divergence" ].
Proof.
  intros Hdone.
  destruct (script_trace w Hdone) as (fg & a1 & a2 & a3 & a4 & h1 & h2 & ->).
  exists a1, a2, a3, a4. repeat split; reflexivity.
Qed.

End Runs.

(** ** The statements at concrete implementations *)



Lemma failure_aborts_witness :
  fst (run file_lib (basic_pareto pareto_density) inputs_without_kld)
  = Raised "FileNotFoundError".
Proof.
  apply (proj2 (failure_aborts file_lib pareto_density inputs_without_kld
                  (firstn 19 (snd (run file_lib (basic_pareto pareto_density)
                                     inputs_without_kld)))
                  []
                  (kldplot 4 kld_data_loc kld_max 40 500 50 100)
                  "FileNotFoundError")).
  reflexivity.
Defined.

Lemma density_subplots_witness :
  exists a1 a2 a3 a4 : Z,
    subplots (snd (run file_lib (script pareto_density) inputs)) =
    [ (1, 4, 1, a1); (1, 4, 2, a2); (1, 4, 3, a3); (1, 4, 4, a4) ] /\
    bar_plots (calls (snd (run file_lib (script pareto_density) inputs))) =
    [ (a1, expected pareto_density, data_loc 40, (0, 10, 0, 1));
      (a2, expected pareto_density, data_loc 60, (0, 10, 0, 1));
      (a3, expected pareto_density, data_loc 220, (0, 10, 0, 1)) ].
Proof.
  apply (density_subplots file_lib pareto_density inputs). reflexivity.
Defined.

Lemma divergence_plot_witness :
  kld_data_loc =
  "../../../flip-bench/experiments/basic-pareto/basic-pareto-kld.out" /\
  exists (before : list (Z * Z * Z * Z)) (a : Z),
    subplots (snd (run file_lib (script pareto_density) inputs)) =
    (before ++ [(1, 4, 4, a)])%list /\
    kld_plots (calls (snd (run file_lib (script pareto_density) inputs))) =
    [ (a, kld_data_loc, kld_max, (40, 500, 50, 100)) ].
Proof.
  apply (divergence_plot file_lib pareto_density inputs). reflexivity.
Defined.

Lemma animations_agree_witness :
  exists h1 h2 : plot_style,
    animations (snd (run file_lib (script pareto_density) inputs)) =
    [ (errorbar,
       Sweep data_loc 10 500 10 (expected pareto_density) 0 10 0 1, h1);
      (bar,
       Sweep data_loc 10 500 10 (expected pareto_density) 0 10 0 1, h2) ] /\
    saves (calls (snd (run file_lib (script pareto_density) inputs))) =
    [ (h1, "basic-pareto-errorbar.gif", "imagemagick", 4);
      (h2, "basic-pareto-histo.gif", "imagemagick", 4) ].
Proof.
  apply (animations_agree file_lib pareto_density inputs). reflexivity.
Defined.

Lemma subplot_titles_witness :
  exists a1 a2 a3 a4 : Z,
    subplots (snd (run file_lib (script pareto_density) inputs)) =
    [ (1, 4, 1, a1); (1, 4, 2, a2); (1, 4, 3, a3); (1, 4, 4, a4) ] /\
    titles (calls (snd (run file_lib (script pareto_density) inputs))) =
    [ (a1, "(a) pdf at update count: 40");
      (a2, "(b) pdf at update count: 60");
      (a3, "(c) pdf at update count: 220");
      (a4, "(d) KL-divergence") ] /\
    map snd
      (titles (calls (snd (run file_lib (script pareto_density) inputs)))) =
    [ "(" ++ Py.chr (Py.ord "a" + 0) ++ ") pdf at update count: "
          ++ Py.str 40;
      "(" ++ Py.chr (Py.ord "a" + 1) ++ ") pdf at update count: "
          ++ Py.str 60;
      "(" ++ Py.chr (Py.ord "a" + 2) ++ ") pdf at update count: "
          ++ Py.str 220;
      "(" ++ Py.chr (Py.ord "a" + 3) ++ ") KL-divergence" ].
Proof.
  apply (subplot_titles file_lib pareto_density inputs). reflexivity.
Defined.

(** * Further properties of the script *)

(** ** Paths *)

Lemma chars_append (a b : string) :
  list_ascii_of_string (a ++ b) =
  (list_ascii_of_string a ++ list_ascii_of_string b)%list.
Proof.
  induction a as [|x a IH]; simpl; [reflexivity | now rewrite IH].
Qed.

(** A string without the separator names a file of the current
    directory. *)
Lemma no_separator (s : string) :
  ~ In "/"%char (list_ascii_of_string s) -> in_current_directory s = true.
Proof.
  unfold in_current_directory.
  induction s as [|x s IH]; intros H; [reflexivity|].
  assert (Hx : prefix "/" (String x s) = false).
  { change (prefix "/" (String x s))
      with (if ascii_dec "/" x then prefix "" s else false).
    destruct (ascii_dec "/" x) as [<- | _]; [|reflexivity].
    exfalso. apply H. now left. }
  cbn [index]. rewrite Hx.
  destruct (index 0 "/" s); [|reflexivity].
  apply IH. intros Hin. apply H. now right.
Qed.

(** A numeral is made of digits. *)
Lemma uint_chars (d : Decimal.uint) (a : ascii) :
  In a (list_ascii_of_string (NilEmpty.string_of_uint d)) ->
  (48 <= N_of_ascii a <= 57)%N.
Proof.
  induction d; simpl; intros H; try contradiction;
    (destruct H as [<- | H]; [vm_compute; split; discriminate | now apply IHd]).
Qed.

Lemma str_chars (i : Z) (a : ascii) :
  In a (list_ascii_of_string (Py.str i)) ->
  a = "-"%char \/ (48 <= N_of_ascii a <= 57)%N.
Proof.
  unfold Py.str, NilZero.string_of_int, NilZero.string_of_uint.
  destruct (Z.to_int i) as [d | d]; destruct d; simpl; intros H;
    repeat match goal with
      | H : _ \/ _ |- _ => destruct H as [<- | H]
      | H : False |- _ => contradiction
      end;
    try (now left); try (right; vm_compute; split; discriminate);
    right; now apply (uint_chars d).
Qed.

(** X1: every snapshot file lies directly in [dir]: [data_loc i] is [dir]
    followed by a file name without a path separator, for every index,
    negative ones included. *)
Theorem snapshot_in_dir (i : Z) :
  data_loc i = dir ++ ("basic-pareto-pdf-" ++ Py.str i ++ ".out") /\
  in_current_directory ("basic-pareto-pdf-" ++ Py.str i ++ ".out") = true.
Proof.
  split.
  - unfold data_loc. now rewrite !append_assoc.
  - apply no_separator. rewrite !chars_append. intros H.
    apply in_app_or in H. destruct H as [H | H].
    + simpl in H.
      repeat (destruct H as [H | H]; [discriminate H|]). exact H.
    + apply in_app_or in H. destruct H as [H | H].
      * apply str_chars in H. destruct H as [H | H]; [discriminate H|].
        vm_compute in H. destruct H as [H _]. now apply H.
      * simpl in H.
        repeat (destruct H as [H | H]; [discriminate H|]). exact H.
Qed.

(** X2: no snapshot path is the path of the divergence series. *)
Theorem snapshot_not_divergence (i : Z) : data_loc i <> kld_data_loc.
Proof.
  rewrite data_loc_template. unfold kld_data_loc, dir. simpl.
  intros H. discriminate H.
Qed.

(** ** Titles *)

(** X3: over the loop indices that give a letter, a title determines
    both the index and the update count it was built from. *)
Theorem annotation_injective (i j c d : Z) :
  0 <= i < 26 -> 0 <= j < 26 ->
  annotation i c = annotation j d -> i = j /\ c = d.
Proof.
  intros Hi Hj H. unfold annotation in H. rewrite !append_assoc in H.
  change (Py.ord "a") with 97 in H. unfold Py.chr in H. simpl in H.
  injection H as Ha Hs.
  assert (Hn : Z.to_N (97 + i) = Z.to_N (97 + j)).
  { rewrite <- (N_ascii_embedding (Z.to_N (97 + i))) by lia.
    rewrite <- (N_ascii_embedding (Z.to_N (97 + j))) by lia.
    now f_equal. }
  split; [lia|]. now apply str_inj.
Qed.

Lemma annotation_injective_witness : 0 = 0 /\ 40 = 40.
Proof.
  apply (annotation_injective 0 0 40 40); [lia | lia | reflexivity].
Defined.

(** ** The reference density and the plotted range *)

Lemma pareto_density_shape_1 (x : Q) :
  (1 <= x)%Q -> (pareto_density x 1 == 1 / (x * x))%Q.
Proof.
  intros H. unfold pareto_density.
  apply Qle_bool_iff in H. rewrite H. reflexivity.
Qed.

Lemma pareto_density_below_1 (x : Q) :
  (x < 1)%Q -> (pareto_density x 1 == 0)%Q.
Proof.
  intros H. unfold pareto_density.
  destruct (Qle_bool 1 x) eqn:E; [|reflexivity].
  apply Qle_bool_iff in E. exfalso. now apply (Qlt_not_le x 1).
Qed.

Lemma square_ge_1 (x : Q) : (1 <= x)%Q -> (1 <= x * x)%Q.
Proof.
  intros H. setoid_replace 1%Q with (1 * 1)%Q by reflexivity.
  apply Qmult_le_compat_nonneg; split; (discriminate || exact H).
Qed.

(** X4: the reference curve never leaves the plotted range: for every
    [x], [expected x] lies between [ymin] and [ymax]. *)
Theorem expected_within_axes (pdf : Q -> Z -> Q) (x : Q) (i : Z) :
  is_pareto_pdf pdf ->
  (inject_Z ymin <= expected pdf x i)%Q /\
  (expected pdf x i <= inject_Z ymax)%Q.
Proof.
  intros Hpdf. unfold expected.
  assert (Hx : (pdf x 1%Z == pareto_density x 1%Z)%Q) by (apply Hpdf; lia).
  rewrite Hx. change (inject_Z ymin) with 0%Q. change (inject_Z ymax) with 1%Q.
  destruct (Qlt_le_dec x 1) as [Hlt | Hge].
  - rewrite (pareto_density_below_1 x Hlt). split; discriminate.
  - rewrite (pareto_density_shape_1 x Hge).
    pose proof (square_ge_1 x Hge) as Hsq.
    assert (Hpos : (0 < x * x)%Q) by (apply Qlt_le_trans with 1%Q; [reflexivity | exact Hsq]).
    split.
    + apply Qle_shift_div_l; [exact Hpos|].
      rewrite Qmult_0_l. discriminate.
    + apply Qle_shift_div_r; [exact Hpos|].
      now rewrite Qmult_1_l.
Qed.

Lemma expected_within_axes_witness :
  (inject_Z ymin <= expected pareto_density 3 (-1))%Q /\
  (expected pareto_density 3 (-1) <= inject_Z ymax)%Q.
Proof.
  apply (expected_within_axes pareto_density 3 (-1)
           pareto_density_is_pareto_pdf).
Defined.

(** X5: on the support, from 1 on, the reference curve is
    non-increasing. *)
Theorem expected_decreasing (pdf : Q -> Z -> Q) (x y : Q) (i j : Z) :
  is_pareto_pdf pdf ->
  (1 <= x)%Q -> (x <= y)%Q ->
  (expected pdf y j <= expected pdf x i)%Q.
Proof.
  intros Hpdf Hx Hxy. unfold expected.
  assert (Hy : (1 <= y)%Q) by (now apply Qle_trans with x).
  assert (Ex : (pdf x 1%Z == pareto_density x 1%Z)%Q) by (apply Hpdf; lia).
  assert (Ey : (pdf y 1%Z == pareto_density y 1%Z)%Q) by (apply Hpdf; lia).
  rewrite Ex, Ey.
  rewrite (pareto_density_shape_1 x Hx), (pareto_density_shape_1 y Hy).
  pose proof (square_ge_1 x Hx) as Sx. pose proof (square_ge_1 y Hy) as Sy.
  assert (Px : (0 < x * x)%Q) by (apply Qlt_le_trans with 1%Q; [reflexivity | exact Sx]).
  assert (Py : (0 < y * y)%Q) by (apply Qlt_le_trans with 1%Q; [reflexivity | exact Sy]).
  assert (Hsq : (x * x <= y * y)%Q).
  { apply Qmult_le_compat_nonneg; split; try exact Hxy;
      apply Qle_trans with 1%Q; (discriminate || exact Hx). }
  apply Qle_shift_div_r; [exact Py|].
  setoid_replace (1 / (x * x) * (y * y))%Q with (y * y / (x * x))%Q
    by (field; intros E; rewrite E in Px; discriminate Px).
  apply Qle_shift_div_l; [exact Px|]. now rewrite Qmult_1_l.
Qed.

Lemma expected_decreasing_witness :
  (expected pareto_density 10 (-1) <= expected pareto_density 2 (-1))%Q.
Proof.
  apply (expected_decreasing pareto_density 2 10 (-1) (-1)
           pareto_density_is_pareto_pdf); discriminate.
Defined.

(** ** Runs that may abort *)

Section AnyRun.

Context {figure axes animation exn world : Type}.
Variable lib :
  forall c : call axes animation,
    world -> (exn + @result figure axes animation c) * world.
Variable pdf : Q -> Z -> Q.

(** Case analysis on the answer to the next call of a run. *)
Ltac next_call :=
  match goal with
  | |- context [lib ?c ?w] =>
      let e := fresh "e" in
      let r := fresh "r" in
      let w' := fresh "w" in
      destruct (lib c w) as [[e | r] w']; cbn [fst snd]
  end.

Ltac all_runs :=
  unfold run, script, density_subplot, perform;
  cbn [bind for_each data_counts exec];
  repeat next_call.

(** X6: whatever the libraries answer, a run asks for no file but the
    four outputs: the files it has written when it ends, completed or
    aborted, are an initial part of basic-pareto.pdf, basic-pareto.png,
    basic-pareto-errorbar.gif, basic-pareto-histo.gif, each once. *)
Theorem writes_only_outputs (w : world) :
  exists rest : list string,
    (files_written (calls (snd (run lib (script pdf) w))) ++ rest)%list =
    [ "basic-pareto.pdf"; "basic-pareto.png";
      "basic-pareto-errorbar.gif"; "basic-pareto-histo.gif" ].
Proof.
  all_runs; eexists; reflexivity.
Qed.

(** X7: no run asks the libraries to write onto one of its inputs: a
    file written is neither a snapshot file, of any index, nor the
    divergence series. *)
Theorem never_overwrites_inputs (w : world) (i : Z) (f : string) :
  In f (files_written (calls (snd (run lib (script pdf) w)))) ->
  f <> data_loc i /\ f <> kld_data_loc.
Proof.
  rewrite data_loc_template.
  all_runs; cbn; intros H;
    repeat (destruct H as [<- | H]; [split; intros E; discriminate E|]);
    contradiction.
Qed.

(** X8: the figure is saved complete or not at all: once a run has asked
    for an output file, the thirteen calls that build the figure have all
    returned, the three density plots and the divergence plot among
    them. *)
Theorem saved_after_drawn (w : world) :
  files_written (calls (snd (run lib (script pdf) w))) <> [] ->
  forallb (fun en => negb (raised en))
    (firstn 13 (snd (run lib (script pdf) w))) = true /\
  List.length (bar_plots (calls (snd (run lib (script pdf) w)))) = 3%nat /\
  List.length (kld_plots (calls (snd (run lib (script pdf) w)))) = 1%nat.
Proof.
  all_runs; cbn; intros H; try (now elim H); repeat split.
Qed.

(** X9: every subplot a run asks for lies inside its grid, whose size is
    one more than the number of update counts, and no cell is asked for
    twice. *)
Theorem subplot_within_grid (w : world) :
  Forall (fun '(r, c, i) =>
            r * c = Py.len data_counts + 1 /\ 1 <= i <= r * c)
    (subplot_requests (calls (snd (run lib (script pdf) w)))) /\
  NoDup (subplot_requests (calls (snd (run lib (script pdf) w)))).
Proof.
  all_runs; cbn; split;
    repeat (constructor; try (cbn; lia));
    cbn; intuition discriminate.
Qed.

(** X10: the data files a run hands to the plot helpers are among the
    divergence series and the snapshots of the three update counts, each
    at most once. *)
Theorem plots_only_inputs (w : world) :
  incl (files_plotted (calls (snd (run lib (script pdf) w)))) inputs /\
  NoDup (files_plotted (calls (snd (run lib (script pdf) w)))).
Proof.
  all_runs; cbn [snd calls map e_call files_plotted flat_map plotted app];
    (split;
     [ intros f H; cbn in H; unfold inputs; cbn [map data_counts];
       repeat (destruct H as [<- | H]; [cbn; tauto|]); contradiction
     | repeat (constructor; [cbn; intuition discriminate|]); constructor ]).
Qed.

End AnyRun.

(** ** These statements at concrete implementations *)

Lemma never_overwrites_inputs_witness :
  "basic-pareto.png" <> data_loc 40 /\ "basic-pareto.png" <> kld_data_loc.
Proof.
  apply (never_overwrites_inputs ideal_lib pareto_density tt 40
           "basic-pareto.png").
  cbn. right. left. reflexivity.
Defined.

Lemma saved_after_drawn_witness :
  forallb (fun en => negb (raised en))
    (firstn 13 (snd (run file_lib (script pareto_density) inputs))) = true /\
  List.length
    (bar_plots (calls (snd (run file_lib (script pareto_density) inputs))))
  = 3%nat /\
  List.length
    (kld_plots (calls (snd (run file_lib (script pareto_density) inputs))))
  = 1%nat.
Proof.
  apply (saved_after_drawn file_lib pareto_density inputs). discriminate.
Defined.
